(** * HexEditorProvider: the custom read-only editor provider of vscode-hexeditor

    A shallow embedding of [src/hexEditorProvider.ts]: the provider object
    (view registry, request counter, pending-response map), the three message
    listeners that [resolveCustomEditor] subscribes on a webview panel, the
    [getFileData] delegate built by [openCustomDocument], and the two posting
    helpers.  The host (VS Code) is represented by the effects the provider
    performs on it, recorded in order in a trace. *)

From Stdlib Require Import ZArith List String Ascii.
From Stdlib.Strings Require Import Byte.
From stdpp Require Import base gmap strings list.
Import ListNotations.

Set Warnings "-register-all".

Local Open Scope string_scope.
Local Open Scope list_scope.
Local Open Scope Z_scope.

(** ** JavaScript values carried by messages *)

Module JS.

(** The fragment of JavaScript values that travels over the webview channel.
    Numbers are the integer-valued ones (sizes, request ids, byte values). *)
Inductive JSValue : Type :=
| VUndefined
| VNull
| VBool (b : bool)
| VNumber (n : Z)
| VString (s : string)
| VUint8Array (bytes : list byte)
| VArray (items : list JSValue)
| VObject (props : list (string * JSValue)).

(** A message is an object; its properties are listed in insertion order,
    each key once. *)
Definition JSObject : Type := list (string * JSValue).

(** [o.k]: reading a property that the object does not have gives
    [undefined]. *)
Fixpoint prop (k : string) (o : JSObject) : JSValue :=
  match o with
  | [] => VUndefined
  | (k', v) :: rest => if String.eqb k k' then v else prop k rest
  end.

(** [v.k] on an arbitrary value: only objects carry properties here. *)
Definition get (v : JSValue) (k : string) : JSValue :=
  match v with
  | VObject o => prop k o
  | _ => VUndefined
  end.

(** [v === s] for a string literal [s]. *)
Definition strict_eq_str (v : JSValue) (s : string) : bool :=
  match v with
  | VString s' => String.eqb s' s
  | _ => false
  end.

(** [v == s] for a string literal [s] like ['open-anyways']: one that holds
    no comma and is not the text of a number, of a boolean or of a plain
    object.  A string compares by content; an array is first converted to
    its comma-joined text, so a one-element array compares as its element
    does; every other value differs from [s]. *)
Fixpoint loose_eq_str (v : JSValue) (s : string) : bool :=
  match v with
  | VString s' => String.eqb s' s
  | VArray [x] => loose_eq_str x s
  | _ => false
  end.

End JS.
Export JS.

(** ** Identities *)

(** [document.uri], the key of a document. *)
Abbreviation Uri := string (only parsing).

(** A [vscode.WebviewPanel], known by its identity. *)
Abbreviation Panel := N (only parsing).

(** ** HexDocument *)

Module HexDocument.

(** Modelled from the spec: the class [HexDocument] (./hexDocument) is not
    part of the source at hand.  The provider reads [uri], [filesize] and
    [documentData] and calls [openAnyways()].  Section 3 of the specification
    gives the fields; [resource] stands for the bytes that the external byte
    source returns when it is read without the safe-load threshold. *)
Record t : Type := mk {
  uri : Uri;
  filesize : Z;
  documentData : list byte;
  openedFully : bool;
  resource : list byte
}.

(** Modelled from the spec: [openAnyways()] "re-invokes the byte source
    without the threshold, replacing content with the full byte sequence and
    setting openedFully = true". *)
Definition openAnyways (d : t) : t :=
  {| uri := uri d;
     filesize := filesize d;
     documentData := resource d;
     openedFully := true;
     resource := resource d |}.

(** Modelled from the spec: [create(locator, backupId, byteSource)] reads at
    most [threshold] bytes, and takes [filesize] from the resource itself. *)
Definition create (locator : Uri) (threshold : nat) (bytes : list byte) : t :=
  {| uri := locator;
     filesize := Z.of_nat (length bytes);
     documentData := take threshold bytes;
     openedFully := bool_decide (length bytes ≤ threshold)%nat;
     resource := bytes |}.

End HexDocument.

(** ** WebviewCollection *)

Module WebviewCollection.

(** Modelled from the spec: the class [WebviewCollection]
    (./webViewCollection) is not part of the source at hand.  Section 4.2 of
    the specification: [add] registers the pairing (document, view); [get]
    returns the live views of a document in registration order; a pairing
    removes itself when its view is disposed. *)
Abbreviation t := (list (string * N)) (only parsing).

Definition empty : t := [].

(** Modelled from the spec: [add(locator, view)] "registers the pairing". *)
Definition add (uri : Uri) (webviewPanel : Panel) (c : t) : t :=
  c ++ [(uri, webviewPanel)].

(** Modelled from the spec: [get(locator)] "returns the live view handles
    for locator, in registration order; empty sequence if none". *)
Definition get (uri : Uri) (c : t) : list Panel :=
  (filter (λ entry, entry.1 = uri) c).*2.

(** Modelled from the spec: what the subscription made by [add] does when
    [webviewPanel] signals its disposal, "the pairing self-removes". *)
Definition panel_disposed (webviewPanel : Panel) (c : t) : t :=
  filter (λ entry, entry.2 ≠ webviewPanel) c.

End WebviewCollection.

(** ** The world: provider, documents, promises, subscriptions, trace *)

(** A promise made by [new Promise(resolve => ...)] at line 171.  The
    executor takes [resolve] alone and cannot throw, so such a promise is
    pending until its [resolve] function is called and is never rejected. *)
Inductive PromiseState : Type :=
| Pending
| Fulfilled (value : JSValue).

(** The [resolve] function of the promise stored at index [promise]. *)
Inductive Resolver : Type :=
| ResolveOf (promise : nat).

(** What the provider does to the host, in the order it does it.  The text
    that line 62 assigns to [webview.html] depends on a nonce and on uris
    that the host supplies; the trace records the assignment only. *)
Inductive Effect : Type :=
| WebviewSetOptions (panel : Panel) (enableScripts : bool)
| WebviewSetHtml (panel : Panel)
| WebviewPostMessage (panel : Panel) (message : JSValue)
| ShowInformationMessage (text : string)
| ConsoleLog (message : JSValue)
| DocumentOpenAnyways (document : Uri).

(** One entry of the journal: a call of [this._callbacks.set], or an effect
    on the host. *)
Inductive Operation : Type :=
| CallbacksSet (requestId : Z) (resolve : Resolver)
| HostEffect (eff : Effect).

(** The fields of [class HexEditorProvider]. *)
Record HexEditorProvider : Type := mkProvider {
  webviews : WebviewCollection.t;
  _requestId : Z;
  _callbacks : gmap Z Resolver
}.

(** [new HexEditorProvider(context)]: field initialisers of lines 20, 166
    and 167. *)
Definition new_HexEditorProvider : HexEditorProvider :=
  {| webviews := WebviewCollection.empty;
     _requestId := 1;
     _callbacks := ∅ |}.

(** The provider together with the objects it shares with the host:
    the store of [HexDocument] objects (one per uri), the promises made so
    far, and for every call [resolveCustomEditor(document, webviewPanel)] the
    message listeners it left subscribed on the panel.  The [trace] lists
    the effects on the host; the [journal] lists the same effects together
    with the writes to the pending map, in the order in which the
    statements run. *)
Record World : Type := mkWorld {
  this : HexEditorProvider;
  documents : gmap Uri HexDocument.t;
  promises : list PromiseState;
  subscriptions : list (Panel * Uri);
  trace : list Effect;
  journal : list Operation
}.

Definition initial : World :=
  {| this := new_HexEditorProvider;
     documents := ∅;
     promises := [];
     subscriptions := [];
     trace := [];
     journal := [] |}.

Definition set_this (f : HexEditorProvider → HexEditorProvider) (w : World) : World :=
  {| this := f (this w); documents := documents w; promises := promises w;
     subscriptions := subscriptions w; trace := trace w;
     journal := journal w |}.

Definition set_documents (f : gmap Uri HexDocument.t → gmap Uri HexDocument.t) (w : World) : World :=
  {| this := this w; documents := f (documents w); promises := promises w;
     subscriptions := subscriptions w; trace := trace w;
     journal := journal w |}.

Definition set_promises (f : list PromiseState → list PromiseState) (w : World) : World :=
  {| this := this w; documents := documents w; promises := f (promises w);
     subscriptions := subscriptions w; trace := trace w;
     journal := journal w |}.

Definition set_subscriptions (f : list (Panel * Uri) → list (Panel * Uri)) (w : World) : World :=
  {| this := this w; documents := documents w; promises := promises w;
     subscriptions := f (subscriptions w); trace := trace w;
     journal := journal w |}.

Definition set_trace (f : list Effect → list Effect) (w : World) : World :=
  {| this := this w; documents := documents w; promises := promises w;
     subscriptions := subscriptions w; trace := f (trace w);
     journal := journal w |}.

Definition set_journal (f : list Operation → list Operation) (w : World) : World :=
  {| this := this w; documents := documents w; promises := promises w;
     subscriptions := subscriptions w; trace := trace w;
     journal := f (journal w) |}.

(** ** Actions: code that reads and updates the world *)

Definition Action (A : Type) : Type := World → A * World.

Definition ret {A} (a : A) : Action A := λ w, (a, w).

Definition bind {A B} (m : Action A) (k : A → Action B) : Action B :=
  λ w, let '(a, w') := m w in k a w'.

Notation "'let*' x ':=' m 'in' k" := (bind m (λ x, k))
  (at level 10, x name, m at level 100, k at level 200).
Notation "m '>>' k" := (bind m (λ _, k))
  (at level 100, k at level 200, right associativity).

(** The world an action leaves, and the value it returns. *)
Definition exec {A} (m : Action A) (w : World) : World := (m w).2.
Definition eval {A} (m : Action A) (w : World) : A := (m w).1.

Definition emit (e : Effect) : Action unit :=
  λ w, (tt, set_journal (λ j, j ++ [HostEffect e]) (set_trace (λ t, t ++ [e]) w)).

(** [panel.webview.postMessage(message)] *)
Definition webview_postMessage (panel : Panel) (message : JSValue) : Action unit :=
  emit (WebviewPostMessage panel message).

(** [vscode.window.showInformationMessage(text)] *)
Definition showInformationMessage (text : string) : Action unit :=
  emit (ShowInformationMessage text).

(** [console.log(message)] *)
Definition console_log (message : JSValue) : Action unit :=
  emit (ConsoleLog message).

(** [this.webviews.add(uri, webviewPanel)] *)
Definition webviews_add (uri : Uri) (webviewPanel : Panel) : Action unit :=
  λ w, (tt, set_this (λ p, {| webviews := WebviewCollection.add uri webviewPanel (webviews p);
                              _requestId := _requestId p;
                              _callbacks := _callbacks p |}) w).

(** [Array.from(this.webviews.get(uri))] *)
Definition webviews_get (uri : Uri) : Action (list Panel) :=
  λ w, (WebviewCollection.get uri (webviews (this w)), w).

(** [this._requestId++]: returns the old value. *)
Definition post_increment_requestId : Action Z :=
  λ w, (_requestId (this w),
        set_this (λ p, {| webviews := webviews p;
                          _requestId := _requestId p + 1;
                          _callbacks := _callbacks p |}) w).

(** [this._callbacks.set(requestId, resolve)] *)
Definition callbacks_set (requestId : Z) (resolve : Resolver) : Action unit :=
  λ w, (tt, set_journal (λ j, j ++ [CallbacksSet requestId resolve])
              (set_this (λ p, {| webviews := webviews p;
                                 _requestId := _requestId p;
                                 _callbacks := <[requestId := resolve]> (_callbacks p) |}) w)).

(** [new Promise(executor)]: the promise is created pending and the executor
    runs at once, with the promise's [resolve] function. *)
Definition new_Promise (executor : Resolver → Action unit) : Action nat :=
  λ w, let p := length (promises w) in
       (p, exec (executor (ResolveOf p)) (set_promises (λ ps, ps ++ [Pending]) w)).

(** Runs [k] on the document object that the reference [document] denotes.
    The host only hands over documents that [openCustomDocument] returned, so
    the reference is in the store; a dangling one would leave the world as it
    is. *)
Definition with_document (document : Uri) (k : HexDocument.t → Action unit) : Action unit :=
  λ w, match documents w !! document with
       | Some doc => k doc w
       | None => (tt, w)
       end.

(** [await document.openAnyways()] *)
Definition document_openAnyways (document : Uri) : Action unit :=
  emit (DocumentOpenAnyways document) >>
  λ w, (tt, set_documents (alter HexDocument.openAnyways document) w).

(** ** The markup of the editor body *)

(** The template literal of [getBodyHTML] holds double quotes; it is written
    here with a backquote for each of them, and [markup] puts them back. *)
Fixpoint markup (s : string) : string :=
  match s with
  | EmptyString => EmptyString
  | String c rest =>
      String (if Ascii.eqb c "`" then ascii_of_nat 34 else c) (markup rest)
  end.

Definition getBodyHTML : string := markup "
		<div class=`column` id=`data-inspector`>
			<div class=`header`>Data Inspector</div>
			<div class=`grid-container`>
				<div class=`grid-item`>
					<label for=`binary8`>8 bit Binary</label>
				</div>
				<div class=`grid-item`>
					<input type=`text` autocomplete=`off` spellcheck=`off` id=`binary8` readonly/>
				</div>
				<div class=`grid-item`>
					<label for=`int8`>Int8</label>
				</div>
				<div class=`grid-item`>
					<input type=`text` autocomplete=`off` spellcheck=`off` id=`int8` readonly/>
				</div>
				<div class=`grid-item`>
					<label for=`uint8`>UInt8</label>
				</div>
				<div class=`grid-item`>
					<input type=`text` autocomplete=`off` spellcheck=`off` id=`uint8` readonly/>
				</div>
			</div>
		</div>
		<div class=`column left` id=`hexaddr`>
			<div class=`header`>Memory Offset </div>
		</div>
		<div class=`column middle` id=`hexbody`>
			<div class=`header`>
				<span>00</span><span>01</span><span>02</span><span>03</span><span>04</span><span>05</span><span>06</span><span>07</span><span>08</span><span>09</span><span>0A</span><span>0B</span><span>0C</span><span>0D</span><span>0E</span><span>0F</span>
			</div>
		</div>
		<div class=`column right` id=`ascii`>
			<div class=`header`>Decoded Text</div>
		</div>".

(** ** The methods of HexEditorProvider *)

(** What [register] hands to [registerCustomEditorProvider2] besides the
    provider itself (lines 8-16, 18). *)
Record Registration : Type := mkRegistration {
  viewType : string;
  supportsMultipleEditorsPerDocument : bool
}.

Definition register : Registration :=
  {| viewType := "hexEditor.hexedit";
     supportsMultipleEditorsPerDocument := false |}.

(** [postMessage(panel, type, body)], lines 176-178. *)
Definition postMessage (panel : Panel) (type : string) (body : JSValue) : Action unit :=
  webview_postMessage panel (VObject [("type", VString type); ("body", body)]).

(** [postMessageWithResponse(panel, type, body)], lines 169-174.  The value
    returned is the promise [p]. *)
Definition postMessageWithResponse (panel : Panel) (type : string) (body : JSValue) : Action nat :=
  let* requestId := post_increment_requestId in
  let* p := new_Promise (λ resolve, callbacks_set requestId resolve) in
  webview_postMessage panel
    (VObject [("type", VString type); ("requestId", VNumber requestId); ("body", body)]) >>
  ret p.

(** [onMessage(document, message)], lines 180-187. *)
Definition onMessage (document : Uri) (message : JSObject) : Action unit :=
  console_log (VObject message) >>
  if strict_eq_str (prop "type" message) "edit"
  then showInformationMessage "This editor is currently readonly."
  else ret tt.

(** The body of an [init] message, lines 70-72 and 81-83. *)
Definition init_body (doc : HexDocument.t) (html : JSValue) : JSValue :=
  VObject [("fileSize", VNumber (HexDocument.filesize doc));
           ("value", VUint8Array (HexDocument.documentData doc));
           ("html", html)].

(** The second listener of [resolveCustomEditor], lines 67-75. *)
Definition readyListener (document : Uri) (webviewPanel : Panel) (e : JSObject) : Action unit :=
  if strict_eq_str (prop "type" e) "ready"
  then with_document document (λ doc,
         postMessage webviewPanel "init"
           (init_body doc
              (if Z.of_nat (length (HexDocument.documentData doc)) =? HexDocument.filesize doc
               then VString getBodyHTML
               else VUndefined)))
  else ret tt.

(** The third listener of [resolveCustomEditor], lines 77-86.  The listener
    is the last one to run for a message and nothing else runs between the
    completion of [openAnyways] and the statement after the [await]. *)
Definition openAnywaysListener (document : Uri) (webviewPanel : Panel) (e : JSObject) : Action unit :=
  if loose_eq_str (prop "type" e) "open-anyways"
  then document_openAnyways document >>
       with_document document (λ doc,
         postMessage webviewPanel "init" (init_body doc (VString getBodyHTML)))
  else ret tt.

(** The three listeners that one call of [resolveCustomEditor] subscribes
    with [onDidReceiveMessage], in the order of lines 64, 67 and 77. *)
Definition listeners (document : Uri) (webviewPanel : Panel) (e : JSObject) : Action unit :=
  onMessage document e >>
  readyListener document webviewPanel e >>
  openAnywaysListener document webviewPanel e.

(** [resolveCustomEditor(document, webviewPanel, _token)], lines 50-87. *)
Definition resolveCustomEditor (document : Uri) (webviewPanel : Panel) : Action unit :=
  webviews_add document webviewPanel >>
  emit (WebviewSetOptions webviewPanel true) >>
  emit (WebviewSetHtml webviewPanel) >>
  λ w, (tt, set_subscriptions (λ s, s ++ [(webviewPanel, document)]) w).

(** How a call of the async function [getFileData] stands when control
    returns to its caller: its promise is rejected with [new Error(error)],
    or it is suspended at the [await] of line 38 on the promise [promise]. *)
Inductive AsyncResult : Type :=
| Rejected (error : string)
| Awaiting (promise : nat).

(** The delegate [getFileData] that [openCustomDocument] hands to the
    document, lines 32-40, up to its [await].  The empty list is the case
    [!webviewsForDocument.length], and [panel] is [webviewsForDocument[0]].
    Line 39 is the continuation of the [await]: it runs once the promise [p]
    is fulfilled. *)
Definition getFileData (document : Uri) : Action AsyncResult :=
  let* webviewsForDocument := webviews_get document in
  match webviewsForDocument with
  | [] => ret (Rejected "Could not find webview to save for")
  | panel :: _ =>
      let* p := postMessageWithResponse panel "getFileData" (VObject []) in
      ret (Awaiting p)
  end.

(** [openCustomDocument(uri, openContext, token)], lines 26-48: [document]
    is the object that [HexDocument.create] produced; the list of listeners
    is empty, so the disposal hook of line 45 does nothing. *)
Definition openCustomDocument (document : HexDocument.t) : Action Uri :=
  λ w, (HexDocument.uri document,
        set_documents (<[HexDocument.uri document := document]>) w).

(** ** The host's side *)

(** A webview delivers the message [e]: every listener subscribed on the
    panel runs, in subscription order. *)
Fixpoint fire (subs : list (Panel * Uri)) (webviewPanel : Panel) (e : JSObject) : Action unit :=
  match subs with
  | [] => ret tt
  | (panel, document) :: rest =>
      (if decide (panel = webviewPanel) then listeners document panel e else ret tt) >>
      fire rest webviewPanel e
  end.

Definition receive (webviewPanel : Panel) (e : JSObject) : Action unit :=
  λ w, fire (subscriptions w) webviewPanel e w.

(** A panel signals its disposal: the registry drops its pairings. *)
Definition panel_disposed (webviewPanel : Panel) : Action unit :=
  λ w, (tt, set_this (λ p, {| webviews := WebviewCollection.panel_disposed webviewPanel (webviews p);
                              _requestId := _requestId p;
                              _callbacks := _callbacks p |}) w).

(** Everything that can happen to a provider: the host's calls, messages
    and disposals, the document asking for its bytes, and uses of the two
    posting helpers. *)
Inductive Event : Type :=
| OpenCustomDocument (document : HexDocument.t)
| ResolveCustomEditor (document : Uri) (webviewPanel : Panel)
| Message (webviewPanel : Panel) (e : JSObject)
| PanelDisposed (webviewPanel : Panel)
| GetFileData (document : Uri)
| Request (panel : Panel) (type : string) (body : JSValue)
| Notify (panel : Panel) (type : string) (body : JSValue).

Definition step (ev : Event) (w : World) : World :=
  match ev with
  | OpenCustomDocument document => exec (openCustomDocument document) w
  | ResolveCustomEditor document webviewPanel => exec (resolveCustomEditor document webviewPanel) w
  | Message webviewPanel e => exec (receive webviewPanel e) w
  | PanelDisposed webviewPanel => exec (panel_disposed webviewPanel) w
  | GetFileData document => exec (getFileData document) w
  | Request panel type body => exec (postMessageWithResponse panel type body) w
  | Notify panel type body => exec (postMessage panel type body) w
  end.

Definition run (evs : list Event) (w : World) : World :=
  foldl (λ w ev, step ev w) w evs.

Arguments getBodyHTML : simpl never.

(** ** Reading traces *)

(** [w'] differs from [w] by the effects [effs], which its journal lists
    too, and by nothing else. *)
Definition only_emits (effs : list Effect) (w w' : World) : Prop :=
  this w' = this w ∧ documents w' = documents w ∧ promises w' = promises w ∧
  subscriptions w' = subscriptions w ∧ trace w' = trace w ++ effs.

(** The request id that a posted message carries, if it carries one. *)
Definition requestId_of (e : Effect) : option Z :=
  match e with
  | WebviewPostMessage _ message =>
      match get message "requestId" with
      | VNumber n => Some n
      | _ => None
      end
  | _ => None
  end.

(** The request ids sent to the views, in the order they were sent. *)
Definition requestIds (t : list Effect) : list Z := omap requestId_of t.

(** A property of a message counts as present when it reads as something
    other than [undefined]. *)
Definition present (k : string) (v : JSValue) : Prop := get v k ≠ VUndefined.

(** The subscriptions on one panel. *)
Definition subscribed (webviewPanel : Panel) (w : World) : list (Panel * Uri) :=
  filter (λ s, s.1 = webviewPanel) (subscriptions w).

(** ** Invariants of the broker *)

(** [w'] has the provider and the promises of [w], and its trace extends
    that of [w] by effects that carry no request id. *)
Definition quiet (w w' : World) : Prop :=
  this w' = this w ∧ promises w' = promises w ∧
  ∃ effs, trace w' = trace w ++ effs ∧ requestIds effs = [].

(** What one event can do to the broker: leave the counter, the pending map
    and the promises alone, or make exactly one request. *)
Inductive broker_step (w w' : World) : Prop :=
| broker_calm :
    _requestId (this w') = _requestId (this w) →
    _callbacks (this w') = _callbacks (this w) →
    promises w' = promises w →
    (∃ effs, trace w' = trace w ++ effs ∧ requestIds effs = []) →
    broker_step w w'
| broker_request (panel : Panel) (message : JSValue) :
    _requestId (this w') = _requestId (this w) + 1 →
    _callbacks (this w')
      = <[_requestId (this w) := ResolveOf (length (promises w))]> (_callbacks (this w)) →
    promises w' = promises w ++ [Pending] →
    trace w' = trace w ++ [WebviewPostMessage panel message] →
    get message "requestId" = VNumber (_requestId (this w)) →
    broker_step w w'.

(** The ids sent so far are 1, 2, ... up to the one before the counter. *)
Definition counted (w : World) : Prop :=
  1 ≤ _requestId (this w) ∧
  requestIds (trace w) = seqZ 1 (_requestId (this w) - 1).

(** ** The dispatch of the specification *)

Module Reference.

(** The dispatch of a response as section 4.3 of the specification words
    it, for comparison with [onMessage]: "If the message carries a requestId
    matching a pending entry, resolves that entry with the message's payload
    and removes it; a message with a requestId not present in the pending
    set is ignored".  (Messages without a request id go to the handlers by
    type; that part is not repeated here.) *)
Definition onIncoming (message : JSObject) : Action unit :=
  λ w, match prop "requestId" message with
       | VNumber requestId =>
           match _callbacks (this w) !! requestId with
           | Some (ResolveOf p) =>
               (tt, set_promises (<[p := Fulfilled (prop "body" message)]>)
                      (set_this (λ b, {| webviews := webviews b;
                                         _requestId := _requestId b;
                                         _callbacks := delete requestId (_callbacks b) |}) w))
           | None => (tt, w)
           end
       | _ => (tt, w)
       end.

End Reference.

(** ** The scenarios of the specification, at a small scale *)

(** A file below the safe-load threshold (3 bytes, threshold 4) and one
    above it (6 bytes, threshold 4). *)
Definition small_file : HexDocument.t :=
  HexDocument.create "file:///small.bin" 4 [x01; x02; x03].

Definition large_file : HexDocument.t :=
  HexDocument.create "file:///large.bin" 4 [x0a; x0b; x0c; x0d; x0e; x0f].

(** A fresh provider after the host opened [d] and attached the view [p]. *)
Definition attached (d : HexDocument.t) (p : Panel) : World :=
  run [OpenCustomDocument d; ResolveCustomEditor (HexDocument.uri d) p] initial.

(** A document shown in two views, 7 registered before 8. *)
Definition two_views : World :=
  run [OpenCustomDocument small_file;
       ResolveCustomEditor "file:///small.bin" 7%N;
       ResolveCustomEditor "file:///small.bin" 8%N] initial.

(** The response of a view to the request [requestId]. *)
Definition response (requestId : Z) (body : JSValue) : JSObject :=
  [("requestId", VNumber requestId); ("body", body)].

(** The body [{data: [...]}] with which a view answers [getFileData]. *)
Definition file_data (data : list Z) : JSValue :=
  VObject [("data", VArray (VNumber <$> data))].

(** Three byte queries A, B, C on a small file shown in view 7: each makes
    one request to the view. *)
Definition three_requests : World :=
  run [GetFileData "file:///small.bin";
       GetFileData "file:///small.bin";
       GetFileData "file:///small.bin"]
      (attached small_file 7%N).

(** The view answers C, then A, then B, each with a payload of its own. *)
Definition answered_C_A_B : World :=
  run [Message 7%N (response 3 (file_data [3; 3; 3]));
       Message 7%N (response 1 (file_data [1; 1; 1]));
       Message 7%N (response 2 (file_data [2; 2; 2]))]
      three_requests.

(** ** The page of a webview *)

Infix "+:+" := String.append (at level 60, right associativity).

(** [getHtmlForWebview(webview)], lines 92-126.  [cspSource] is
    [webview.cspSource]; [scriptUri] and [styleUri] are the texts of the two
    uris that [webview.asWebviewUri] returns for [media/hexEdit.js] and
    [media/hexEdit.css] under the extension's path; [nonce] is what
    [getNonce()] returned.  As in [getBodyHTML], a backquote in a literal
    part stands for a double quote; the four interpolated texts are taken as
    they are. *)
Definition getHtmlForWebview (cspSource scriptUri styleUri nonce : string) : string :=
  markup "
			<!DOCTYPE html>
			<html lang=`en`>
			<head>
				<meta charset=`UTF-8`>

				<!--
				Use a content security policy to only allow loading images from https or from our extension directory,
				and only allow scripts that have a specific nonce.
				-->
				<meta http-equiv=`Content-Security-Policy` content=`default-src 'none'; img-src " +:+
  cspSource +:+
  markup " blob:; style-src " +:+
  cspSource +:+
  markup "; script-src 'nonce-" +:+
  nonce +:+
  markup "';`>

				<meta name=`viewport` content=`width=device-width, initial-scale=1.0`>

				<link href=`" +:+
  styleUri +:+
  markup "` rel=`stylesheet` />
				<script nonce=`" +:+
  nonce +:+
  markup "` src=`" +:+
  scriptUri +:+
  markup "` defer></script>

				<title>Hex Editor</title>
			</head>
			<body>
			</body>
			</html>".

(** The text [x] occurs in the text [s]. *)
Definition occurs (x s : string) : Prop :=
  ∃ pre post, s = pre +:+ x +:+ post.

(** ** What the handling of a message may do *)

(** An effect that, if it posts a message, posts it to [webviewPanel]. *)
Definition addressed_to (webviewPanel : Panel) (eff : Effect) : Prop :=
  match eff with
  | WebviewPostMessage panel _ => panel = webviewPanel
  | _ => True
  end.

(** [w'] has the provider, the promises and the subscriptions of [w]; its
    documents are those of [w] except for the ones in [touched]; and its
    trace extends that of [w] by effects that post to [webviewPanel] alone
    and carry no request id. *)
Definition confined (webviewPanel : Panel) (touched : list Uri) (w w' : World) : Prop :=
  this w' = this w ∧ promises w' = promises w ∧ subscriptions w' = subscriptions w ∧
  (∀ document, document ∉ touched → documents w' !! document = documents w !! document) ∧
  ∃ effs, trace w' = trace w ++ effs ∧ Forall (addressed_to webviewPanel) effs ∧
          requestIds effs = [].

(** The pending map and the promises as the requests made so far leave
    them: one resolver under each id from 1 up to the counter, the one of
    the promise made for that id, and every promise pending. *)
Definition ledger (w : World) : Prop :=
  1 ≤ _requestId (this w) ∧
  (∀ k, _callbacks (this w) !! k
        = if decide (1 ≤ k < _requestId (this w))
          then Some (ResolveOf (Z.to_nat (k - 1))) else None) ∧
  promises w = replicate (Z.to_nat (_requestId (this w) - 1)) Pending.

(** An effect that posts no message to any view. *)
Definition silent (eff : Effect) : Prop :=
  match eff with
  | WebviewPostMessage _ _ => False
  | _ => True
  end.

(** A message that is neither [ready] (line 68) nor [open-anyways]
    (line 78). *)
Definition asks_no_init (e : JSObject) : Prop :=
  strict_eq_str (prop "type" e) "ready" = false ∧
  loose_eq_str (prop "type" e) "open-anyways" = false.

(** The init message that [webviewPanel] gets for [doc] on [ready]. *)
Definition init_on_ready (webviewPanel : Panel) (doc : HexDocument.t) : Effect :=
  WebviewPostMessage webviewPanel
    (VObject [("type", VString "init");
              ("body", init_body doc
                 (if Z.of_nat (length (HexDocument.documentData doc)) =? HexDocument.filesize doc
                  then VString getBodyHTML else VUndefined))]).

(** * Properties *)

Ltac action :=
  unfold exec, eval, listeners, onMessage, readyListener, openAnywaysListener,
    resolveCustomEditor, getFileData, postMessageWithResponse, postMessage,
    openCustomDocument, panel_disposed, document_openAnyways, with_document,
    new_Promise, callbacks_set, post_increment_requestId, webviews_get,
    webviews_add, console_log, showInformationMessage, webview_postMessage,
    emit, bind, ret, exec.

Section Dispatch.

Lemma fire_subscribed (subs : list (Panel * Uri)) (webviewPanel : Panel)
    (e : JSObject) (w : World) :
  fire subs webviewPanel e w
  = fire (filter (λ s, s.1 = webviewPanel) subs) webviewPanel e w.
Proof.
  revert w. induction subs as [|[panel document] subs IH]; intros w; [done|].
  rewrite filter_cons. cbn [fire fst]. destruct (decide (panel = webviewPanel)) as [->|Hne].
  - cbn [fire]. rewrite decide_True by done.
    unfold bind. destruct (listeners document webviewPanel e w) as [[] w']. apply IH.
  - unfold bind at 1. cbn. apply IH.
Qed.

(** A panel that [resolveCustomEditor] was called for once runs exactly
    the three listeners of that call. *)
Lemma receive_listeners (document : Uri) (webviewPanel : Panel) (e : JSObject) (w : World) :
  subscribed webviewPanel w = [(webviewPanel, document)] →
  receive webviewPanel e w = listeners document webviewPanel e w.
Proof.
  unfold subscribed, receive. intros Hsub.
  rewrite fire_subscribed, Hsub. cbn [fire]. rewrite decide_True by done.
  unfold bind at 1. destruct (listeners document webviewPanel e w) as [[] w']. done.
Qed.

Lemma subscribed_resolveCustomEditor (document : Uri) (webviewPanel : Panel) (w : World) :
  subscribed webviewPanel w = [] →
  subscribed webviewPanel (exec (resolveCustomEditor document webviewPanel) w)
  = [(webviewPanel, document)].
Proof.
  unfold subscribed. intros Hnone. action. cbn.
  rewrite filter_app, Hnone, filter_cons. cbn. by rewrite decide_True.
Qed.

End Dispatch.

(** ** The handshake of a view *)

Section Handshake.

Variables (document : Uri) (webviewPanel : Panel) (e : JSObject).
Variables (doc : HexDocument.t) (w : World).

(** [document] is an open document, and [webviewPanel] a panel that carries
    the listeners of one call of [resolveCustomEditor], made for that
    document. *)
Hypothesis document_open : documents w !! document = Some doc.
Hypothesis panel_resolved : subscribed webviewPanel w = [(webviewPanel, document)].

(** C3. When a view of a document sends [ready], the provider logs the
    message and posts one [init] message to that view and does nothing
    else; the body of the message has [fileSize] = the document's
    [filesize] and [value] = the document's [documentData], and its [html]
    is present exactly when the length of [documentData] equals
    [filesize]: it is then the markup of [getBodyHTML], and [undefined]
    otherwise. *)
Theorem ready_sends_init :
  prop "type" e = VString "ready" →
  let loaded := Z.of_nat (length (HexDocument.documentData doc)) =? HexDocument.filesize doc in
  let body := init_body doc (if loaded then VString getBodyHTML else VUndefined) in
  only_emits
    [ConsoleLog (VObject e);
     WebviewPostMessage webviewPanel (VObject [("type", VString "init"); ("body", body)])]
    w (step (Message webviewPanel e) w) ∧
  get body "fileSize" = VNumber (HexDocument.filesize doc) ∧
  get body "value" = VUint8Array (HexDocument.documentData doc) ∧
  (present "html" body ↔
     Z.of_nat (length (HexDocument.documentData doc)) = HexDocument.filesize doc) ∧
  (present "html" body → get body "html" = VString getBodyHTML).
Proof.
  intros Htype loaded body.
  assert (Hhtml : get body "html" = if loaded then VString getBodyHTML else VUndefined) by done.
  split; [|split; [done|split; [done|split]]].
  - cbn [step]. unfold exec. rewrite (receive_listeners document) by done.
    action. rewrite Htype. cbn. rewrite document_open. cbn.
    unfold only_emits. cbn. rewrite <- app_assoc. done.
  - unfold present. rewrite Hhtml. unfold loaded.
    destruct (Z.eqb_spec (Z.of_nat (length (HexDocument.documentData doc)))
                (HexDocument.filesize doc)); split; done.
  - unfold present. rewrite Hhtml. by destruct loaded.
Qed.

(** C4. When a view of a document sends [open-anyways], whatever happened
    before, the provider logs the message, calls [openAnyways()] on the
    document, and after that posts one [init] message to the view; the body
    is read from the document as [openAnyways()] left it, so [value] is the
    full content of the resource, and [html] is the markup of [getBodyHTML]
    without any condition. *)
Theorem open_anyways_loads_then_sends_init :
  prop "type" e = VString "open-anyways" →
  let w' := step (Message webviewPanel e) w in
  let full := HexDocument.openAnyways doc in
  let body := init_body full (VString getBodyHTML) in
  this w' = this w ∧ promises w' = promises w ∧ subscriptions w' = subscriptions w ∧
  documents w' = alter HexDocument.openAnyways document (documents w) ∧
  documents w' !! document = Some full ∧
  trace w' = trace w ++
    [ConsoleLog (VObject e);
     DocumentOpenAnyways document;
     WebviewPostMessage webviewPanel (VObject [("type", VString "init"); ("body", body)])] ∧
  get body "fileSize" = VNumber (HexDocument.filesize doc) ∧
  get body "value" = VUint8Array (HexDocument.resource doc) ∧
  get body "html" = VString getBodyHTML ∧
  present "html" body.
Proof.
  intros Htype w' full body.
  assert (Hfull : alter HexDocument.openAnyways document (documents w) !! document = Some full).
  { rewrite lookup_alter, decide_True by done. by rewrite document_open. }
  assert (Hw' : w' = exec (listeners document webviewPanel e) w).
  { unfold w'. cbn [step]. unfold exec. by rewrite (receive_listeners document). }
  revert Hw'. action. rewrite Htype. cbn. rewrite Hfull. cbn. intros ->. cbn.
  rewrite <- !app_assoc. done.
Qed.

(** C7. When a view sends [edit], with whatever else in the message, the
    provider logs the message and shows the notice "This editor is currently
    readonly."; the provider's fields, every document, every promise and
    every subscription stay as they were, nothing is posted to any view, and
    the handling runs to its end. *)
Theorem edit_is_answered_by_a_notice :
  prop "type" e = VString "edit" →
  only_emits
    [ConsoleLog (VObject e);
     ShowInformationMessage "This editor is currently readonly."]
    w (step (Message webviewPanel e) w).
Proof.
  intros Htype. cbn [step]. unfold exec. rewrite (receive_listeners document) by done.
  action. rewrite Htype. cbn. unfold only_emits. cbn. by rewrite <- app_assoc.
Qed.

End Handshake.

(** Scenario 2: the [init] for the large file has no markup. *)
Lemma ready_sends_init_witness :
  trace (step (Message 7%N [("type", VString "ready")]) (attached large_file 7%N))
  = [WebviewSetOptions 7%N true; WebviewSetHtml 7%N;
     ConsoleLog (VObject [("type", VString "ready")]);
     WebviewPostMessage 7%N
       (VObject [("type", VString "init");
                 ("body", VObject [("fileSize", VNumber 6);
                                   ("value", VUint8Array [x0a; x0b; x0c; x0d]);
                                   ("html", VUndefined)])])].
Proof.
  destruct (ready_sends_init "file:///large.bin" 7%N [("type", VString "ready")]
              large_file (attached large_file 7%N)) as [(_ & _ & _ & _ & Htrace) _].
  - vm_compute; reflexivity.
  - vm_compute; reflexivity.
  - reflexivity.
  - vm_compute in Htrace |- *. exact Htrace.
Defined.

(** Scenario 1: the [init] for the small file carries the markup. *)
Example ready_small_file :
  trace (step (Message 7%N [("type", VString "ready")]) (attached small_file 7%N))
  = [WebviewSetOptions 7%N true; WebviewSetHtml 7%N;
     ConsoleLog (VObject [("type", VString "ready")]);
     WebviewPostMessage 7%N
       (VObject [("type", VString "init");
                 ("body", VObject [("fileSize", VNumber 3);
                                   ("value", VUint8Array [x01; x02; x03]);
                                   ("html", VString getBodyHTML)])])].
Proof. vm_compute; reflexivity. Qed.

(** Scenario 3: after [ready], the view of the large file sends
    [open-anyways]; the second [init] has all six bytes and the markup. *)
Lemma open_anyways_loads_then_sends_init_witness :
  let w := step (Message 7%N [("type", VString "ready")]) (attached large_file 7%N) in
  let w' := step (Message 7%N [("type", VString "open-anyways")]) w in
  (HexDocument.documentData <$> documents w' !! "file:///large.bin"
   = Some [x0a; x0b; x0c; x0d; x0e; x0f]) ∧
  trace w' = trace w ++
    [ConsoleLog (VObject [("type", VString "open-anyways")]);
     DocumentOpenAnyways "file:///large.bin";
     WebviewPostMessage 7%N
       (VObject [("type", VString "init");
                 ("body", VObject [("fileSize", VNumber 6);
                                   ("value", VUint8Array [x0a; x0b; x0c; x0d; x0e; x0f]);
                                   ("html", VString getBodyHTML)])])].
Proof.
  intros w w'.
  destruct (open_anyways_loads_then_sends_init "file:///large.bin" 7%N
              [("type", VString "open-anyways")] large_file w)
    as (_ & _ & _ & _ & Hdoc & Htrace & _).
  - vm_compute; reflexivity.
  - vm_compute; reflexivity.
  - reflexivity.
  - split.
    + subst w'. cbv zeta in Hdoc. rewrite Hdoc. reflexivity.
    + exact Htrace.
Defined.

Lemma edit_is_answered_by_a_notice_witness :
  let e := [("type", VString "edit"); ("body", VObject [("offset", VNumber 2); ("value", VNumber 255)])] in
  let w := attached small_file 7%N in
  only_emits
    [ConsoleLog (VObject e); ShowInformationMessage "This editor is currently readonly."]
    w (step (Message 7%N e) w).
Proof.
  intros e w.
  apply (edit_is_answered_by_a_notice "file:///small.bin" 7%N e w).
  - vm_compute; reflexivity.
  - reflexivity.
Defined.

(** ** The broker: request ids, pending resolvers, promises *)

Lemma quiet_refl (w : World) : quiet w w.
Proof. repeat split. exists []. by rewrite app_nil_r. Qed.

Lemma quiet_trans (w1 w2 w3 : World) : quiet w1 w2 → quiet w2 w3 → quiet w1 w3.
Proof.
  intros (Ht1 & Hp1 & effs1 & Htr1 & Hid1) (Ht2 & Hp2 & effs2 & Htr2 & Hid2).
  repeat split; [congruence..|].
  exists (effs1 ++ effs2). split.
  - by rewrite Htr2, Htr1, app_assoc.
  - unfold requestIds in *. by rewrite omap_app, Hid1, Hid2.
Qed.

Lemma quiet_emit (eff : Effect) (w : World) :
  requestId_of eff = None → quiet w (exec (emit eff) w).
Proof.
  intros Hnone. repeat split. exists [eff]. split; [done|].
  unfold requestIds. cbn. by rewrite Hnone.
Qed.

Lemma quiet_postMessage (panel : Panel) (type : string) (body : JSValue) (w : World) :
  quiet w (exec (postMessage panel type body) w).
Proof. by apply quiet_emit. Qed.

Lemma quiet_with_document (document : Uri) (k : HexDocument.t → Action unit) (w : World) :
  (∀ doc w0, quiet w0 (exec (k doc) w0)) → quiet w (exec (with_document document k) w).
Proof.
  intros Hk. unfold exec, with_document.
  destruct (documents w !! document) as [doc|]; [apply Hk|apply quiet_refl].
Qed.

Lemma exec_bind {A B} (m : Action A) (k : A → Action B) (w : World) :
  exec (bind m k) w = exec (k (eval m w)) (exec m w).
Proof. unfold exec, eval, bind. by destruct (m w). Qed.

Lemma quiet_bind {A} (m : Action A) (k : A → Action unit) (w : World) :
  quiet w (exec m w) → (∀ a w0, quiet w0 (exec (k a) w0)) → quiet w (exec (bind m k) w).
Proof. intros Hm Hk. rewrite exec_bind. eapply quiet_trans; [apply Hm|apply Hk]. Qed.

Lemma quiet_onMessage (document : Uri) (message : JSObject) (w : World) :
  quiet w (exec (onMessage document message) w).
Proof.
  unfold onMessage. apply quiet_bind; [by apply quiet_emit|]. intros _ w0.
  destruct (strict_eq_str _ _); [by apply quiet_emit|apply quiet_refl].
Qed.

Lemma quiet_readyListener (document : Uri) (webviewPanel : Panel) (e : JSObject) (w : World) :
  quiet w (exec (readyListener document webviewPanel e) w).
Proof.
  unfold readyListener. destruct (strict_eq_str _ _); [|apply quiet_refl].
  apply quiet_with_document. intros. apply quiet_postMessage.
Qed.

Lemma quiet_document_openAnyways (document : Uri) (w : World) :
  quiet w (exec (document_openAnyways document) w).
Proof.
  unfold document_openAnyways. apply quiet_bind; [by apply quiet_emit|].
  intros _ w0. repeat split. exists []. by rewrite app_nil_r.
Qed.

Lemma quiet_openAnywaysListener (document : Uri) (webviewPanel : Panel) (e : JSObject) (w : World) :
  quiet w (exec (openAnywaysListener document webviewPanel e) w).
Proof.
  unfold openAnywaysListener. destruct (loose_eq_str _ _); [|apply quiet_refl].
  apply quiet_bind; [apply quiet_document_openAnyways|]. intros _ w0.
  apply quiet_with_document. intros. apply quiet_postMessage.
Qed.

Lemma quiet_listeners (document : Uri) (webviewPanel : Panel) (e : JSObject) (w : World) :
  quiet w (exec (listeners document webviewPanel e) w).
Proof.
  unfold listeners. apply quiet_bind; [apply quiet_onMessage|]. intros _ w0.
  apply quiet_bind; [apply quiet_readyListener|]. intros _ w1.
  apply quiet_openAnywaysListener.
Qed.

Lemma quiet_fire (subs : list (Panel * Uri)) (webviewPanel : Panel) (e : JSObject) (w : World) :
  quiet w (exec (fire subs webviewPanel e) w).
Proof.
  revert w. induction subs as [|[panel document] subs IH]; intros w; [apply quiet_refl|].
  cbn [fire]. apply quiet_bind; [|intros _ w0; apply IH].
  destruct (decide (panel = webviewPanel)); [apply quiet_listeners|apply quiet_refl].
Qed.

(** Handling a message from a view leaves the request counter, the pending
    map and every promise as they were. *)
Lemma quiet_receive (webviewPanel : Panel) (e : JSObject) (w : World) :
  quiet w (exec (receive webviewPanel e) w).
Proof. apply (quiet_fire (subscriptions w)). Qed.

Lemma quiet_calm (w w' : World) : quiet w w' → broker_step w w'.
Proof. intros (Hthis & Hp & Hex). apply broker_calm; [by rewrite Hthis..|done|done]. Qed.

Lemma postMessageWithResponse_step (panel : Panel) (type : string) (body : JSValue) (w : World) :
  broker_step w (exec (postMessageWithResponse panel type body) w).
Proof. by eapply broker_request. Qed.

Lemma getFileData_step (document : Uri) (w : World) :
  broker_step w (exec (getFileData document) w).
Proof.
  unfold getFileData. rewrite exec_bind. unfold webviews_get at 2. unfold exec at 2. cbn [snd].
  destruct (eval (webviews_get document) w) as [|panel rest].
  - apply quiet_calm, quiet_refl.
  - rewrite exec_bind. apply postMessageWithResponse_step.
Qed.

Lemma step_broker (ev : Event) (w : World) : broker_step w (step ev w).
Proof.
  destruct ev; cbn [step].
  - apply broker_calm; try done. exists []. by rewrite app_nil_r.
  - apply broker_calm; try done.
    exists [WebviewSetOptions webviewPanel true; WebviewSetHtml webviewPanel].
    split; [|done]. cbn. by rewrite <- app_assoc.
  - apply quiet_calm, quiet_receive.
  - apply broker_calm; try done. exists []. by rewrite app_nil_r.
  - apply getFileData_step.
  - apply postMessageWithResponse_step.
  - apply quiet_calm, quiet_postMessage.
Qed.

Lemma run_invariant (I : World → Prop) :
  (∀ ev w, I w → I (step ev w)) → ∀ evs w, I w → I (run evs w).
Proof.
  intros Hstep evs. induction evs as [|ev evs IH]; intros w Hw; [done|].
  cbn. apply IH, Hstep, Hw.
Qed.


Lemma counted_initial : counted initial.
Proof. done. Qed.

Lemma counted_step (ev : Event) (w : World) : counted w → counted (step ev w).
Proof.
  intros [Hge Hids]. unfold counted, requestIds in *.
  destruct (step_broker ev w)
    as [Hid _ _ (effs & Htr & Hnone) | panel message Hid _ _ Htr Hget];
    rewrite Hid, Htr, omap_app, Hids.
  - unfold requestIds in Hnone. by rewrite Hnone, app_nil_r.
  - split; [lia|]. cbn. rewrite Hget.
    replace (_requestId (this w) + 1 - 1) with ((_requestId (this w) - 1) + 1) by lia.
    rewrite seqZ_app by lia. f_equal.
    replace (1 + (_requestId (this w) - 1)) with (_requestId (this w)) by lia. done.
Qed.

(** C5. Whatever happens to a provider from its construction on (views
    attached and disposed, messages received, byte queries, requests and
    notifications), the request ids it sends are, in order, 1, 2, 3, ...:
    the first is 1, each later one is larger than every earlier one, no id
    occurs twice, and the counter holds the next id.  Ids are JavaScript
    numbers; they are taken here as integers, which is exact below 2^53. *)
Theorem request_ids_count_up (evs : list Event) :
  let ids := requestIds (trace (run evs initial)) in
  (∀ i a, ids !! i = Some a → a = 1 + Z.of_nat i) ∧
  (∀ i j a b, ids !! i = Some a → ids !! j = Some b → (i < j)%nat → a < b) ∧
  NoDup ids ∧
  _requestId (this (run evs initial)) = 1 + Z.of_nat (length ids).
Proof.
  intros ids.
  destruct (run_invariant counted counted_step evs initial counted_initial) as [Hge Hids].
  fold ids in Hids.
  assert (Hnth : ∀ i a, ids !! i = Some a → a = 1 + Z.of_nat i).
  { intros i a. rewrite Hids, lookup_seqZ. tauto. }
  split; [done|]. split; [|split].
  - intros i j a b Ha Hb Hlt. apply Hnth in Ha, Hb. lia.
  - rewrite Hids. apply NoDup_seqZ.
  - rewrite Hids, length_seqZ. lia.
Qed.

Section Requests.

Variables (panel : Panel) (type : string) (body : JSValue) (w : World).

(** C8. [postMessageWithResponse] first stores the resolver of the new
    promise in [_callbacks] under the request's id and then posts to the
    view the object with the three properties [type], [requestId] and
    [body]: the journal gains these two entries in this order, the message
    is posted in a world in which the resolver is already in the map and
    nothing has been posted yet, and the promise is returned while it is
    still pending.  [postMessage] posts the object with the two properties
    [type] and [body], stores no resolver and does nothing else. *)
Theorem request_and_notification_shapes :
  let requestId := _requestId (this w) in
  let p := length (promises w) in
  let request := VObject [("type", VString type); ("requestId", VNumber requestId); ("body", body)] in
  let notification := VObject [("type", VString type); ("body", body)] in
  let w' := exec (postMessageWithResponse panel type body) w in
  (∃ recorded : World,
     _callbacks (this recorded) !! requestId = Some (ResolveOf p) ∧
     promises recorded !! p = Some Pending ∧
     trace recorded = trace w ∧
     postMessageWithResponse panel type body w
     = (p, exec (webview_postMessage panel request) recorded)) ∧
  journal w' = journal w ++
    [CallbacksSet requestId (ResolveOf p);
     HostEffect (WebviewPostMessage panel request)] ∧
  trace w' = trace w ++ [WebviewPostMessage panel request] ∧
  promises w' !! p = Some Pending ∧
  only_emits [WebviewPostMessage panel notification] w (exec (postMessage panel type body) w) ∧
  journal (exec (postMessage panel type body) w)
    = journal w ++ [HostEffect (WebviewPostMessage panel notification)] ∧
  get notification "requestId" = VUndefined.
Proof.
  intros requestId p request notification w'.
  assert (Hp : (promises w ++ [Pending]) !! p = Some Pending) by by apply list_lookup_middle.
  split; [|split; [|done]].
  - exists (exec (new_Promise (callbacks_set requestId)) (exec post_increment_requestId w)).
    split; [apply lookup_insert_eq|done].
  - cbn. by rewrite <- app_assoc.
Qed.

(** C2. A request puts the resolver of its promise into [_callbacks] under
    the request's id, and whatever happens afterwards (among it the disposal
    of the view the request went to, messages from any view, further
    requests) the entry is still there and the promise is still pending:
    nothing removes an entry and nothing settles a promise. *)
Theorem pending_entry_is_never_removed (evs : list Event) :
  let requestId := _requestId (this w) in
  let p := eval (postMessageWithResponse panel type body) w in
  let requested := exec (postMessageWithResponse panel type body) w in
  _callbacks (this requested) !! requestId = Some (ResolveOf p) ∧
  promises requested !! p = Some Pending ∧
  _callbacks (this (run evs requested)) !! requestId = Some (ResolveOf p) ∧
  promises (run evs requested) !! p = Some Pending.
Proof.
  intros requestId p requested.
  pose (kept := λ w0 : World,
          requestId < _requestId (this w0) ∧
          _callbacks (this w0) !! requestId = Some (ResolveOf p) ∧
          promises w0 !! p = Some Pending).
  assert (Hrequested : kept requested).
  { split; [cbn; lia|]. split; [apply lookup_insert_eq|by apply list_lookup_middle]. }
  assert (Hstep : ∀ ev w0, kept w0 → kept (step ev w0)).
  { intros ev w0 (Hlt & Hcb & Hp).
    destruct (step_broker ev w0) as [Hid Hcb' Hp' _ | ? ? Hid Hcb' Hp' _ _];
      unfold kept; rewrite Hid, Hcb', Hp'; [done|].
    split; [lia|]. split.
    - rewrite lookup_insert_ne by lia. done.
    - rewrite lookup_app_l by eauto using lookup_lt_Some. done. }
  destruct (run_invariant kept Hstep evs requested Hrequested) as (_ & Hcb & Hp).
  destruct Hrequested as (_ & Hcb0 & Hp0). done.
Qed.

End Requests.

(** ** The view registry and the byte query *)

Lemma get_add (uri document : Uri) (webviewPanel : Panel) (c : WebviewCollection.t) :
  WebviewCollection.get uri (WebviewCollection.add document webviewPanel c)
  = WebviewCollection.get uri c ++ (if decide (document = uri) then [webviewPanel] else []).
Proof.
  unfold WebviewCollection.get, WebviewCollection.add.
  rewrite filter_app, fmap_app, filter_cons. cbn [fst].
  destruct (decide (document = uri)); done.
Qed.

(** C9. When [resolveCustomEditor] attaches a second view to a document
    that already has one, the registry holds both: [get] for the document
    returns what it returned before, followed by the first and then the
    second view.  ([register] itself asks the host for a single editor per
    document, see [register_single_editor].) *)
Theorem second_view_is_registered_too (document : Uri) (first second : Panel) (w : World) :
  let w' := run [ResolveCustomEditor document first; ResolveCustomEditor document second] w in
  WebviewCollection.get document (webviews (this w'))
  = WebviewCollection.get document (webviews (this w)) ++ [first; second].
Proof.
  cbn [run foldl step]. unfold exec, resolveCustomEditor, webviews_add, emit, bind.
  cbn [snd this set_this set_trace set_journal set_subscriptions webviews].
  rewrite !get_add, !decide_True by done. by rewrite <- app_assoc.
Qed.

Remark register_single_editor : supportsMultipleEditorsPerDocument register = false.
Proof. reflexivity. Qed.

(** C6. With no view registered for the document, [getFileData] ends with
    its promise rejected by the error "Could not find webview to save for";
    the call returns to its caller, posts nothing and changes nothing. *)
Theorem getFileData_without_view (document : Uri) (w : World) :
  WebviewCollection.get document (webviews (this w)) = [] →
  getFileData document w = (Rejected "Could not find webview to save for", w).
Proof. intros Hnone. unfold getFileData, bind, webviews_get. by rewrite Hnone. Qed.

Lemma getFileData_without_view_witness :
  let w := run [PanelDisposed 7%N] (attached small_file 7%N) in
  getFileData "file:///small.bin" w = (Rejected "Could not find webview to save for", w).
Proof.
  intros w. apply (getFileData_without_view "file:///small.bin" w).
  vm_compute; reflexivity.
Defined.

(** With views registered, [getFileData] makes one request, to the view
    that was registered first, and then waits for the promise of that
    request. *)
Lemma getFileData_asks_first_view (document : Uri) (first : Panel) (others : list Panel)
    (w : World) :
  WebviewCollection.get document (webviews (this w)) = first :: others →
  getFileData document w
  = (Awaiting (length (promises w)),
     exec (postMessageWithResponse first "getFileData" (VObject [])) w).
Proof. intros Hviews. unfold getFileData, bind, webviews_get. by rewrite Hviews. Qed.

(** ** Responses *)

(** C1, on the code: the three requests get the ids 1, 2, 3; after the view
    has answered all three, every promise is still pending and the three
    resolvers are still in [_callbacks]: [onMessage] has a case for [edit]
    only, the responses are logged and dropped.  The dispatch of the
    specification, run on the same three responses, fulfils each promise
    with its own payload and empties the map. *)
Theorem responses_are_logged_and_dropped :
  requestIds (trace three_requests) = [1; 2; 3] ∧
  promises three_requests = [Pending; Pending; Pending] ∧
  promises answered_C_A_B = [Pending; Pending; Pending] ∧
  _callbacks (this answered_C_A_B)
    = <[1 := ResolveOf 0%nat]> (<[2 := ResolveOf 1%nat]> (<[3 := ResolveOf 2%nat]> ∅)) ∧
  trace answered_C_A_B = trace three_requests ++
    [ConsoleLog (VObject (response 3 (file_data [3; 3; 3])));
     ConsoleLog (VObject (response 1 (file_data [1; 1; 1])));
     ConsoleLog (VObject (response 2 (file_data [2; 2; 2])))] ∧
  let expected :=
    exec (Reference.onIncoming (response 3 (file_data [3; 3; 3])) >>
          Reference.onIncoming (response 1 (file_data [1; 1; 1])) >>
          Reference.onIncoming (response 2 (file_data [2; 2; 2]))) three_requests in
  promises expected
    = [Fulfilled (file_data [1; 1; 1]); Fulfilled (file_data [2; 2; 2]);
       Fulfilled (file_data [3; 3; 3])] ∧
  _callbacks (this expected) = ∅.
Proof. vm_compute. repeat split. Qed.

(** C10, on the code: the byte query of a document with two views sends one
    [getFileData] request, to the view registered first, and waits on the
    promise of that request; when that view answers with the bytes, the
    promise stays pending, so the query never returns them: no listener
    hands a response to its resolver. *)
Theorem byte_query_is_never_answered :
  let query := getFileData "file:///small.bin" two_views in
  let answered := step (Message 7%N (response 1 (file_data [1; 2; 3]))) query.2 in
  query.1 = Awaiting 0 ∧
  trace query.2 = trace two_views ++
    [WebviewPostMessage 7%N
       (VObject [("type", VString "getFileData"); ("requestId", VNumber 1); ("body", VObject [])])] ∧
  promises answered !! 0%nat = Some Pending ∧
  _callbacks (this answered) !! 1 = Some (ResolveOf 0) ∧
  trace answered = trace query.2 ++ [ConsoleLog (VObject (response 1 (file_data [1; 2; 3])))].
Proof. vm_compute. repeat split. Qed.

(** ** What the handling of a message can reach *)

Lemma confined_refl (webviewPanel : Panel) (touched : list Uri) (w : World) :
  confined webviewPanel touched w w.
Proof. repeat split. exists []. by rewrite app_nil_r. Qed.

Lemma confined_trans (webviewPanel : Panel) (touched : list Uri) (w1 w2 w3 : World) :
  confined webviewPanel touched w1 w2 → confined webviewPanel touched w2 w3 →
  confined webviewPanel touched w1 w3.
Proof.
  intros (Ht1 & Hp1 & Hs1 & Hd1 & effs1 & Htr1 & Hto1 & Hid1)
         (Ht2 & Hp2 & Hs2 & Hd2 & effs2 & Htr2 & Hto2 & Hid2).
  repeat split; [congruence..| |].
  - intros document Hnot. by rewrite Hd2, Hd1.
  - exists (effs1 ++ effs2). split; [by rewrite Htr2, Htr1, app_assoc|]. split.
    + by apply Forall_app.
    + unfold requestIds in *. by rewrite omap_app, Hid1, Hid2.
Qed.

Lemma confined_mono (webviewPanel : Panel) (touched touched' : list Uri) (w w' : World) :
  touched ⊆ touched' → confined webviewPanel touched w w' →
  confined webviewPanel touched' w w'.
Proof.
  intros Hsub (Ht & Hp & Hs & Hd & Heffs). repeat split; try done.
  intros document Hnot. apply Hd. intros Hin. apply Hnot, Hsub, Hin.
Qed.

Lemma confined_emit (webviewPanel : Panel) (touched : list Uri) (eff : Effect) (w : World) :
  addressed_to webviewPanel eff → requestId_of eff = None →
  confined webviewPanel touched w (exec (emit eff) w).
Proof.
  intros Hto Hnone. repeat split. exists [eff]. split; [done|]. split.
  - by constructor.
  - unfold requestIds. cbn. by rewrite Hnone.
Qed.

Lemma confined_bind {A} (webviewPanel : Panel) (touched : list Uri)
    (m : Action A) (k : A → Action unit) (w : World) :
  confined webviewPanel touched w (exec m w) →
  (∀ a w0, confined webviewPanel touched w0 (exec (k a) w0)) →
  confined webviewPanel touched w (exec (bind m k) w).
Proof. intros Hm Hk. rewrite exec_bind. eapply confined_trans; [apply Hm|apply Hk]. Qed.

Lemma confined_with_document (webviewPanel : Panel) (touched : list Uri) (document : Uri)
    (k : HexDocument.t → Action unit) (w : World) :
  (∀ doc w0, confined webviewPanel touched w0 (exec (k doc) w0)) →
  confined webviewPanel touched w (exec (with_document document k) w).
Proof.
  intros Hk. unfold exec, with_document.
  destruct (documents w !! document) as [doc|]; [apply Hk|apply confined_refl].
Qed.

Lemma confined_listeners (document : Uri) (webviewPanel : Panel) (e : JSObject) (w : World) :
  confined webviewPanel [document] w (exec (listeners document webviewPanel e) w).
Proof.
  unfold listeners. apply confined_bind.
  { unfold onMessage. apply confined_bind; [by apply confined_emit|]. intros _ w0.
    destruct (strict_eq_str _ _); [by apply confined_emit|apply confined_refl]. }
  intros _ w0. apply confined_bind.
  { unfold readyListener. destruct (strict_eq_str _ _); [|apply confined_refl].
    apply confined_with_document. intros doc w1. by apply confined_emit. }
  intros _ w1. unfold openAnywaysListener.
  destruct (loose_eq_str _ _); [|apply confined_refl].
  apply confined_bind.
  - unfold document_openAnyways. apply confined_bind; [by apply confined_emit|].
    intros _ w2. repeat split.
    + intros other Hnot. cbn. apply lookup_alter_ne.
      intros ->. apply Hnot, list_elem_of_singleton. done.
    + exists []. by rewrite app_nil_r.
  - intros _ w2. apply confined_with_document. intros doc w3. by apply confined_emit.
Qed.

Lemma confined_fire (subs : list (Panel * Uri)) (webviewPanel : Panel) (e : JSObject)
    (w : World) :
  confined webviewPanel (filter (λ s, s.1 = webviewPanel) subs).*2 w
    (exec (fire subs webviewPanel e) w).
Proof.
  revert w. induction subs as [|[panel document] subs IH]; intros w; [apply confined_refl|].
  cbn [fire]. rewrite filter_cons. cbn [fst].
  destruct (decide (panel = webviewPanel)) as [->|Hne].
  - apply confined_bind.
    + eapply confined_mono; [|apply confined_listeners].
      intros other ->%list_elem_of_singleton. apply elem_of_cons. by left.
    + intros _ w0. eapply confined_mono; [|apply IH]. by apply list_subseteq_cons.
  - apply confined_bind; [apply confined_refl|]. intros _ w0. apply IH.
Qed.

(** X1. Whatever message a view sends and whatever the world is, handling
    it leaves the registry, the request counter, the pending map, every
    promise and every subscription as they were; any message that the
    handling posts goes to the view that sent the message, and is not a
    request; and no document changes other than those this panel was
    resolved for. *)
Theorem message_handling_is_confined (webviewPanel : Panel) (e : JSObject) (w : World) :
  let w' := step (Message webviewPanel e) w in
  this w' = this w ∧ promises w' = promises w ∧ subscriptions w' = subscriptions w ∧
  (∀ document, document ∉ (subscribed webviewPanel w).*2 →
     documents w' !! document = documents w !! document) ∧
  ∃ effs, trace w' = trace w ++ effs ∧
          Forall (addressed_to webviewPanel) effs ∧ requestIds effs = [].
Proof. apply (confined_fire (subscriptions w)). Qed.

Lemma only_emits_refl (w : World) : only_emits [] w w.
Proof. repeat split. by rewrite app_nil_r. Qed.

Lemma only_emits_trans (effs1 effs2 : list Effect) (w1 w2 w3 : World) :
  only_emits effs1 w1 w2 → only_emits effs2 w2 w3 → only_emits (effs1 ++ effs2) w1 w3.
Proof.
  intros (Ht1 & Hd1 & Hp1 & Hs1 & Htr1) (Ht2 & Hd2 & Hp2 & Hs2 & Htr2).
  repeat split; [congruence..|]. by rewrite Htr2, Htr1, app_assoc.
Qed.

Section OtherMessages.

Variables (webviewPanel : Panel) (e : JSObject).

Hypothesis not_edit : strict_eq_str (prop "type" e) "edit" = false.
Hypothesis not_ready : strict_eq_str (prop "type" e) "ready" = false.
Hypothesis not_open_anyways : loose_eq_str (prop "type" e) "open-anyways" = false.

Lemma listeners_other (document : Uri) (w : World) :
  only_emits [ConsoleLog (VObject e)] w (exec (listeners document webviewPanel e) w).
Proof. action. rewrite not_edit, not_ready, not_open_anyways. done. Qed.

Lemma fire_other (subs : list (Panel * Uri)) (w : World) :
  only_emits
    (replicate (length (filter (λ s, s.1 = webviewPanel) subs)) (ConsoleLog (VObject e)))
    w (exec (fire subs webviewPanel e) w).
Proof.
  revert w. induction subs as [|[panel document] subs IH]; intros w; [apply only_emits_refl|].
  cbn [fire]. rewrite filter_cons, exec_bind. cbn [fst].
  destruct (decide (panel = webviewPanel)) as [->|Hne].
  - cbn [length replicate].
    eapply (only_emits_trans [_]); [apply listeners_other|apply IH].
  - apply IH.
Qed.

(** X2. A message whose [type] is not ['edit'], not ['ready'] and does not
    compare equal to ['open-anyways'] (among them every message without a
    [type]) is logged once by each set of listeners on the sending panel,
    and that is all: nothing is shown, nothing is posted, no document and no
    field of the provider changes. *)
Theorem other_messages_are_only_logged (w : World) :
  only_emits
    (replicate (length (subscribed webviewPanel w)) (ConsoleLog (VObject e)))
    w (step (Message webviewPanel e) w).
Proof. apply (fire_other (subscriptions w)). Qed.

End OtherMessages.

Lemma other_messages_are_only_logged_witness :
  let e := [("command", VString "scroll"); ("offset", VNumber 4096)] in
  let w := attached small_file 7%N in
  only_emits [ConsoleLog (VObject e)] w (step (Message 7%N e) w).
Proof.
  intros e w.
  exact (other_messages_are_only_logged 7%N e eq_refl eq_refl eq_refl w).
Defined.

(** ** The pending map over the life of a provider *)

Lemma ledger_initial : ledger initial.
Proof.
  split; [done|]. split; [|done].
  intros k. cbn. rewrite lookup_empty. case_decide; [lia|done].
Qed.

Lemma ledger_step (ev : Event) (w : World) : ledger w → ledger (step ev w).
Proof.
  intros (Hge & Hcb & Hp). unfold ledger.
  destruct (step_broker ev w) as [Hid Hcb' Hp' _ | ? ? Hid Hcb' Hp' _ _];
    rewrite Hid, Hcb', Hp'; [done|].
  split; [lia|]. split.
  - intros k. rewrite lookup_insert. destruct (decide (_requestId (this w) = k)) as [<-|Hne].
    + rewrite decide_True by lia. rewrite Hp, length_replicate. done.
    + rewrite Hcb. repeat case_decide; try done; lia.
  - rewrite Hp. replace (Z.to_nat (_requestId (this w) + 1 - 1))
      with (S (Z.to_nat (_requestId (this w) - 1))) by lia.
    by rewrite replicate_S_end.
Qed.

(** X3. Whatever happens to a provider from its construction on, after [n]
    requests its pending map holds exactly the ids 1 to [n], each with the
    resolver of the promise made for it (the id [k] with promise [k - 1]),
    there are exactly [n] promises, and every one of them is pending: the
    map grows by one entry with each request and nothing ever leaves it. *)
Theorem pending_map_holds_every_request (evs : list Event) :
  let w := run evs initial in
  let n := length (requestIds (trace w)) in
  (∀ k, _callbacks (this w) !! k
        = if decide (1 ≤ k ≤ Z.of_nat n) then Some (ResolveOf (Z.to_nat (k - 1))) else None) ∧
  promises w = replicate n Pending.
Proof.
  intros w n.
  destruct (run_invariant ledger ledger_step evs initial ledger_initial) as (Hge & Hcb & Hp).
  destruct (run_invariant counted counted_step evs initial counted_initial) as [_ Hids].
  fold w in Hge, Hcb, Hp, Hids.
  assert (Hn : Z.of_nat n = _requestId (this w) - 1).
  { unfold n. rewrite Hids, length_seqZ. lia. }
  split.
  - intros k. rewrite Hcb. repeat case_decide; try done; lia.
  - rewrite Hp. f_equal. lia.
Qed.

(** ** The byte query with a view *)

(** X4. With at least one view registered for the document, [getFileData]
    posts exactly one message: a [getFileData] request with an empty body
    and the next request id, to the view that [get] lists first; it leaves
    the resolver of a new pending promise under that id, advances the
    counter by one, and is then suspended on that promise.  The registry and
    the documents are unchanged. *)
Theorem getFileData_asks_the_first_view_only (document : Uri) (first : Panel)
    (others : list Panel) (w : World) :
  WebviewCollection.get document (webviews (this w)) = first :: others →
  let requestId := _requestId (this w) in
  let p := length (promises w) in
  let w' := exec (getFileData document) w in
  eval (getFileData document) w = Awaiting p ∧
  trace w' = trace w ++
    [WebviewPostMessage first
       (VObject [("type", VString "getFileData"); ("requestId", VNumber requestId);
                 ("body", VObject [])])] ∧
  _requestId (this w') = requestId + 1 ∧
  _callbacks (this w') = <[requestId := ResolveOf p]> (_callbacks (this w)) ∧
  promises w' = promises w ++ [Pending] ∧
  webviews (this w') = webviews (this w) ∧
  documents w' = documents w ∧
  subscriptions w' = subscriptions w.
Proof.
  intros Hviews requestId p w'. unfold w', exec, eval.
  rewrite (getFileData_asks_first_view document first others w Hviews). done.
Qed.

Lemma getFileData_asks_the_first_view_only_witness :
  let w' := exec (getFileData "file:///small.bin") two_views in
  eval (getFileData "file:///small.bin") two_views = Awaiting 0 ∧
  trace w' = trace two_views ++
    [WebviewPostMessage 7%N
       (VObject [("type", VString "getFileData"); ("requestId", VNumber 1);
                 ("body", VObject [])])].
Proof.
  intros w'.
  destruct (getFileData_asks_the_first_view_only "file:///small.bin" 7%N [8%N] two_views)
    as (Hres & Htrace & _).
  - vm_compute; reflexivity.
  - split; [exact Hres|exact Htrace].
Defined.

(** ** Loose and strict comparison of the message type *)

(** X5. Lines 68 and 183 compare the type of a message with [===], line 78
    compares it with [==].  So a message whose type is a one-element array
    holding the text [t] is logged and otherwise ignored when [t] is
    ['edit'] or ['ready'] (or anything else), while for [t] =
    ['open-anyways'] the document is loaded in full and [init] is posted,
    as for the plain text. *)
Theorem array_wrapped_type (document : Uri) (webviewPanel : Panel) (e : JSObject)
    (doc : HexDocument.t) (w : World) (t : string) :
  documents w !! document = Some doc →
  subscribed webviewPanel w = [(webviewPanel, document)] →
  prop "type" e = VArray [VString t] →
  trace (step (Message webviewPanel e) w)
  = trace w ++
    ConsoleLog (VObject e) ::
    (if String.eqb t "open-anyways"
     then [DocumentOpenAnyways document;
           WebviewPostMessage webviewPanel
             (VObject [("type", VString "init");
                       ("body", init_body (HexDocument.openAnyways doc) (VString getBodyHTML))])]
     else []).
Proof.
  intros Hdoc Hsub Htype. cbn [step]. unfold exec.
  rewrite (receive_listeners document) by done.
  action. rewrite Htype. cbn. destruct (String.eqb t "open-anyways"); cbn; [|done].
  rewrite lookup_alter, decide_True by done. rewrite Hdoc. cbn.
  by rewrite <- !app_assoc.
Qed.

Lemma array_wrapped_type_witness :
  let e := [("type", VArray [VString "open-anyways"])] in
  let w := attached large_file 7%N in
  trace (step (Message 7%N e) w)
  = trace w ++
    [ConsoleLog (VObject e);
     DocumentOpenAnyways "file:///large.bin";
     WebviewPostMessage 7%N
       (VObject [("type", VString "init");
                 ("body", VObject [("fileSize", VNumber 6);
                                   ("value", VUint8Array [x0a; x0b; x0c; x0d; x0e; x0f]);
                                   ("html", VString getBodyHTML)])])].
Proof.
  intros e w.
  pose proof (array_wrapped_type "file:///large.bin" 7%N e large_file w "open-anyways") as H.
  rewrite H; [reflexivity|vm_compute; reflexivity..].
Defined.

(** ** The handshake has no memory *)

Lemma listeners_ready (document : Uri) (webviewPanel : Panel) (e : JSObject)
    (doc : HexDocument.t) (w : World) :
  documents w !! document = Some doc →
  prop "type" e = VString "ready" →
  only_emits [ConsoleLog (VObject e); init_on_ready webviewPanel doc]
    w (exec (listeners document webviewPanel e) w).
Proof.
  intros Hdoc Htype. action. rewrite Htype. cbn. rewrite Hdoc. cbn.
  unfold only_emits. cbn. by rewrite <- app_assoc.
Qed.

(** X6. The provider keeps no record of a view being ready: each [ready]
    from a view is answered by an [init] for the document as it is, however
    many came before.  [n] such messages in a row give [n] times the log
    entry and the same [init], and change nothing else. *)
Theorem ready_is_answered_every_time (document : Uri) (webviewPanel : Panel) (e : JSObject)
    (doc : HexDocument.t) (n : nat) (w : World) :
  documents w !! document = Some doc →
  subscribed webviewPanel w = [(webviewPanel, document)] →
  prop "type" e = VString "ready" →
  only_emits
    (concat (replicate n [ConsoleLog (VObject e); init_on_ready webviewPanel doc]))
    w (run (replicate n (Message webviewPanel e)) w).
Proof.
  intros Hdoc Hsub Htype. revert w Hdoc Hsub.
  induction n as [|n IH]; intros w Hdoc Hsub; [apply only_emits_refl|].
  cbn [replicate concat run foldl].
  assert (Hstep : only_emits [ConsoleLog (VObject e); init_on_ready webviewPanel doc]
                    w (step (Message webviewPanel e) w)).
  { cbn [step]. unfold exec. rewrite (receive_listeners document) by done.
    by apply listeners_ready. }
  eapply only_emits_trans; [apply Hstep|].
  destruct Hstep as (_ & Hd & _ & Hs & _). apply IH.
  - by rewrite Hd.
  - unfold subscribed. by rewrite Hs.
Qed.

Lemma ready_is_answered_every_time_witness :
  let e := [("type", VString "ready")] in
  let w := attached small_file 7%N in
  only_emits
    [ConsoleLog (VObject e); init_on_ready 7%N small_file;
     ConsoleLog (VObject e); init_on_ready 7%N small_file;
     ConsoleLog (VObject e); init_on_ready 7%N small_file]
    w (run [Message 7%N e; Message 7%N e; Message 7%N e] w).
Proof.
  intros e w.
  apply (ready_is_answered_every_time "file:///small.bin" 7%N e small_file 3 w).
  - vm_compute; reflexivity.
  - vm_compute; reflexivity.
  - reflexivity.
Defined.

(** ** From attaching a view to its first [init] *)

Lemma listeners_silent (document : Uri) (webviewPanel : Panel) (e : JSObject) (w : World) :
  asks_no_init e →
  ∃ effs, only_emits effs w (exec (listeners document webviewPanel e) w) ∧ Forall silent effs.
Proof.
  intros [Hready Hopen]. action. rewrite Hready, Hopen.
  destruct (strict_eq_str (prop "type" e) "edit"); cbn.
  - exists [ConsoleLog (VObject e); ShowInformationMessage "This editor is currently readonly."].
    split; [|by repeat constructor]. unfold only_emits. cbn. by rewrite <- app_assoc.
  - exists [ConsoleLog (VObject e)]. split; [done|by repeat constructor].
Qed.

Lemma messages_silent (document : Uri) (webviewPanel : Panel) (es : list JSObject) (w : World) :
  subscribed webviewPanel w = [(webviewPanel, document)] →
  Forall asks_no_init es →
  ∃ effs, only_emits effs w (run (Message webviewPanel <$> es) w) ∧ Forall silent effs.
Proof.
  intros Hsub Hes. revert w Hsub.
  induction Hes as [|e es He Hes IH]; intros w Hsub.
  - exists []. split; [apply only_emits_refl|constructor].
  - destruct (listeners_silent document webviewPanel e w He) as (effs1 & Hstep & Hsilent1).
    assert (Hstep' : only_emits effs1 w (step (Message webviewPanel e) w)).
    { cbn [step]. unfold exec. by rewrite (receive_listeners document). }
    destruct (IH (step (Message webviewPanel e) w)) as (effs2 & Hrest & Hsilent2).
    { destruct Hstep' as (_ & _ & _ & Hs & _). unfold subscribed. by rewrite Hs. }
    exists (effs1 ++ effs2). split; [|by apply Forall_app].
    cbn [fmap list_fmap run foldl]. eapply only_emits_trans; [apply Hstep'|apply Hrest].
Qed.

(** X7. [resolveCustomEditor] posts nothing to the new view: it registers
    the view, enables scripts, assigns the page and subscribes.  After it,
    messages from the view that are neither [ready] nor [open-anyways],
    however many, cause no post to any view and change no state; and when
    the view sends [ready], the [init] for the document is posted to it.
    (An [open-anyways] gets an [init] as well, by lines 77-86.) *)
Theorem attach_then_ready (document : Uri) (webviewPanel : Panel) (e : JSObject)
    (doc : HexDocument.t) (w : World) :
  documents w !! document = Some doc →
  subscribed webviewPanel w = [] →
  prop "type" e = VString "ready" →
  let after_attach := step (ResolveCustomEditor document webviewPanel) w in
  let w' := step (Message webviewPanel e) after_attach in
  trace after_attach = trace w ++ [WebviewSetOptions webviewPanel true; WebviewSetHtml webviewPanel] ∧
  WebviewCollection.get document (webviews (this after_attach))
    = WebviewCollection.get document (webviews (this w)) ++ [webviewPanel] ∧
  only_emits [ConsoleLog (VObject e); init_on_ready webviewPanel doc] after_attach w' ∧
  (∀ es : list JSObject, Forall asks_no_init es →
     ∃ effs, only_emits effs after_attach (run (Message webviewPanel <$> es) after_attach) ∧
             Forall silent effs).
Proof.
  intros Hdoc Hnone Htype after_attach w'.
  assert (Hsub : subscribed webviewPanel after_attach = [(webviewPanel, document)])
    by by apply subscribed_resolveCustomEditor.
  split; [|split; [|split]].
  - unfold after_attach. cbn. by rewrite <- app_assoc.
  - unfold after_attach. cbn [step]. unfold exec, resolveCustomEditor, webviews_add, emit, bind.
    cbn [snd this set_this set_trace set_journal set_subscriptions webviews].
    by rewrite get_add, decide_True.
  - unfold w'. cbn [step]. unfold exec at 1.
    rewrite (receive_listeners document) by done.
    by apply listeners_ready.
  - intros es Hes. by apply (messages_silent document).
Qed.

Lemma attach_then_ready_witness :
  let e := [("type", VString "ready")] in
  let w := run [OpenCustomDocument large_file] initial in
  trace (run [ResolveCustomEditor "file:///large.bin" 9%N; Message 9%N e] w)
  = [WebviewSetOptions 9%N true; WebviewSetHtml 9%N;
     ConsoleLog (VObject e); init_on_ready 9%N large_file].
Proof.
  intros e w.
  destruct (attach_then_ready "file:///large.bin" 9%N e large_file w)
    as (Hattach & _ & (_ & _ & _ & _ & Htrace) & _).
  - vm_compute; reflexivity.
  - reflexivity.
  - reflexivity.
  - cbn [run foldl]. rewrite Htrace, Hattach. reflexivity.
Defined.

(** ** The page *)

Lemma append_assoc (a b c : string) : (a +:+ b) +:+ c = a +:+ b +:+ c.
Proof.
  induction a as [|x a IH]; [done|].
  change (String x ((a +:+ b) +:+ c) = String x (a +:+ b +:+ c)). by rewrite IH.
Qed.

Ltac normalise_text := repeat (cbn; rewrite ?append_assoc); reflexivity.

(** X8. Whatever the source of the webview, the two uris and the nonce are,
    the page that [getHtmlForWebview] builds has a content security policy
    that admits images and styles from [cspSource] and scripts with the
    nonce, a stylesheet link to [styleUri], a script tag that carries this
    same nonce and loads [scriptUri], and an empty body. *)
Theorem page_admits_its_own_script (cspSource scriptUri styleUri nonce : string) :
  let html := getHtmlForWebview cspSource scriptUri styleUri nonce in
  occurs (markup "img-src " +:+ cspSource +:+ markup " blob:; style-src " +:+ cspSource +:+ markup "; script-src 'nonce-" +:+ nonce +:+ markup "';") html ∧
  occurs (markup "<link href=`" +:+ styleUri +:+ markup "` rel=`stylesheet` />") html ∧
  occurs (markup "<script nonce=`" +:+ nonce +:+ markup "` src=`" +:+ scriptUri +:+ markup "` defer></script>") html ∧
  occurs (markup "<body>
			</body>") html.
Proof.
  intros html. repeat split.
  - exists (markup "
			<!DOCTYPE html>
			<html lang=`en`>
			<head>
				<meta charset=`UTF-8`>

				<!--
				Use a content security policy to only allow loading images from https or from our extension directory,
				and only allow scripts that have a specific nonce.
				-->
				<meta http-equiv=`Content-Security-Policy` content=`default-src 'none'; "),
      (markup "`>

				<meta name=`viewport` content=`width=device-width, initial-scale=1.0`>

				<link href=`" +:+ styleUri +:+ markup "` rel=`stylesheet` />
				<script nonce=`" +:+ nonce +:+ markup "` src=`" +:+ scriptUri +:+ markup "` defer></script>

				<title>Hex Editor</title>
			</head>
			<body>
			</body>
			</html>").
    unfold html, getHtmlForWebview. normalise_text.
  - exists (markup "
			<!DOCTYPE html>
			<html lang=`en`>
			<head>
				<meta charset=`UTF-8`>

				<!--
				Use a content security policy to only allow loading images from https or from our extension directory,
				and only allow scripts that have a specific nonce.
				-->
				<meta http-equiv=`Content-Security-Policy` content=`default-src 'none'; img-src " +:+ cspSource +:+ markup " blob:; style-src " +:+ cspSource +:+ markup "; script-src 'nonce-" +:+ nonce +:+ markup "';`>

				<meta name=`viewport` content=`width=device-width, initial-scale=1.0`>

				"),
      (markup "
				<script nonce=`" +:+ nonce +:+ markup "` src=`" +:+ scriptUri +:+ markup "` defer></script>

				<title>Hex Editor</title>
			</head>
			<body>
			</body>
			</html>").
    unfold html, getHtmlForWebview. normalise_text.
  - exists (markup "
			<!DOCTYPE html>
			<html lang=`en`>
			<head>
				<meta charset=`UTF-8`>

				<!--
				Use a content security policy to only allow loading images from https or from our extension directory,
				and only allow scripts that have a specific nonce.
				-->
				<meta http-equiv=`Content-Security-Policy` content=`default-src 'none'; img-src " +:+ cspSource +:+ markup " blob:; style-src " +:+ cspSource +:+ markup "; script-src 'nonce-" +:+ nonce +:+ markup "';`>

				<meta name=`viewport` content=`width=device-width, initial-scale=1.0`>

				<link href=`" +:+ styleUri +:+ markup "` rel=`stylesheet` />
				"),
      (markup "

				<title>Hex Editor</title>
			</head>
			<body>
			</body>
			</html>").
    unfold html, getHtmlForWebview. normalise_text.
  - exists (markup "
			<!DOCTYPE html>
			<html lang=`en`>
			<head>
				<meta charset=`UTF-8`>

				<!--
				Use a content security policy to only allow loading images from https or from our extension directory,
				and only allow scripts that have a specific nonce.
				-->
				<meta http-equiv=`Content-Security-Policy` content=`default-src 'none'; img-src " +:+ cspSource +:+ markup " blob:; style-src " +:+ cspSource +:+ markup "; script-src 'nonce-" +:+ nonce +:+ markup "';`>

				<meta name=`viewport` content=`width=device-width, initial-scale=1.0`>

				<link href=`" +:+ styleUri +:+ markup "` rel=`stylesheet` />
				<script nonce=`" +:+ nonce +:+ markup "` src=`" +:+ scriptUri +:+ markup "` defer></script>

				<title>Hex Editor</title>
			</head>
			"),
      (markup "
			</html>").
    unfold html, getHtmlForWebview. normalise_text.
Qed.
